(** * SSF client: connection state machine (src/core/client/client.ipp)

    A shallow embedding of [SSFClient<N, T>]: its member functions are
    written in a small state-and-trace monad over the client's fields, and
    every call into a collaborator (engine, socket, resolver, multiplexer,
    service factory, scheduler) is recorded as an event, in program order. *)

From Stdlib Require Import ZArith Bool List String Lia.
From stdpp Require Import base option list strings gmap.
Import ListNotations.

Local Open Scope Z_scope.
Local Open Scope list_scope.

(** ** Error codes *)

Module error.

Inductive error_category : Set :=
| system_category
| ssf_category
| other_category (id : nat).

(** [boost::system::error_code]: a value and a category. *)
Record error_code : Set := mk_error_code {
  value : Z;
  category : error_category
}.

(** [boost::system::error_code()] *)
Definition no_error : error_code := mk_error_code 0 system_category.

(** [if (ec)]: an error code is true when its value is not zero. *)
Definition is_error (ec : error_code) : bool := negb (Z.eqb (value ec) 0).

(** [::error::device_or_resource_busy] comes from common/error/error.h,
    where it is [boost::system::errc::device_or_resource_busy] (EBUSY). *)
Definition device_or_resource_busy : Z := 16.

(** [ec.assign(v, cat)] *)
Definition assign (v : Z) (cat : error_category) : error_code :=
  mk_error_code v cat.

End error.
Import error.

#[global] Instance error_category_eq_dec : EqDecision error_category.
Proof. solve_decision. Defined.

#[global] Instance error_code_eq_dec : EqDecision error_code.
Proof. solve_decision. Defined.

(** ** Collaborators, as far as the client sees them *)

(** [ssf::services::initialisation::type], the kinds this file notifies. *)
Inductive initialisation_type : Set := NETWORK | TRANSPORT | CLOSE.

#[global] Instance initialisation_type_eq_dec : EqDecision initialisation_type.
Proof. solve_decision. Defined.

Inductive NetworkQuery : Set := Query (text : string).
Inductive Endpoint : Set := EndpointOf (text : string).

(** The object behind [p_socket_]; the pointer itself is an [option]. *)
Inductive NetworkSocket : Set := Socket.

Inductive BaseUserService : Set := UserService (name : string).
Inductive ClientCallback : Set := Callback (id : nat).

(** The address [&fiber_demux_], which keys the factory table. *)
Definition Demux : Set := nat.

Inductive LogLevel : Set := kLogError | kLogTrace.

Inductive AdminCommand : Set :=
| CreateServiceRequest
| StopServiceRequest
| ServiceStatus.

(** The micro services whose headers the file includes, in the order in
    which [DoFiberize] registers them. *)
Inductive ServiceKind : Set :=
| SocksServer
| FibersToSockets
| SocketsToFibers
| FibersToDatagrams
| DatagramsToFibers
| FileToFiber
| FiberToFile
| FileEnquirer
| ProcessServer.

#[global] Instance ServiceKind_eq_dec : EqDecision ServiceKind.
Proof. solve_decision. Defined.

Definition all_services : list ServiceKind :=
  [SocksServer; FibersToSockets; SocketsToFibers; FibersToDatagrams;
   DatagramsToFibers; FileToFiber; FiberToFile; FileEnquirer; ProcessServer].

Inductive ServiceConfig : Set := Config (text : string).

(** [ssf::config::Services], with the accessors [DoFiberize] reads. *)
Record Services : Set := mk_Services {
  socks : ServiceConfig;
  stream_forwarder : ServiceConfig;
  stream_listener : ServiceConfig;
  datagram_forwarder : ServiceConfig;
  datagram_listener : ServiceConfig;
  file_copy : ServiceConfig;
  process : ServiceConfig
}.

(** The configuration handed to each service's [RegisterToServiceFactory]. *)
Definition config_of (cfg : Services) (k : ServiceKind) : ServiceConfig :=
  match k with
  | SocksServer => socks cfg
  | FibersToSockets => stream_forwarder cfg
  | SocketsToFibers => stream_listener cfg
  | FibersToDatagrams => datagram_forwarder cfg
  | DatagramsToFibers => datagram_listener cfg
  | FileToFiber | FiberToFile | FileEnquirer => file_copy cfg
  | ProcessServer => process cfg
  end.

(** Modelled from the spec: the engine class is declared outside this file.
    [IsStarted] tells whether [Start] was called with no [Stop] since. *)
Record AsyncEngine : Set := mk_AsyncEngine { started : bool }.

Module Engine.
Definition IsStarted (e : AsyncEngine) : bool := started e.
Definition Start (e : AsyncEngine) : AsyncEngine := mk_AsyncEngine true.
Definition Stop (e : AsyncEngine) : AsyncEngine := mk_AsyncEngine false.
End Engine.

(** What a service manager runs: the bootstrap Admin service, or a micro
    service created later through the Admin channel. *)
Inductive ServiceName : Set :=
| Admin
| Micro (k : ServiceKind).

(** Modelled from the spec: the service manager (section 4.4) keeps the
    running instances under freshly allocated identifiers. *)
Record ServiceManager : Set := mk_ServiceManager {
  next_id : nat;
  running : list (nat * ServiceName)
}.

Definition new_manager : ServiceManager := mk_ServiceManager 0 [].

(** Modelled from the spec: [start(instance)] of section 4.4. A start that
    fails leaves the instance untracked and reports the error. *)
Definition manager_start (m : ServiceManager) (s : ServiceName)
    (outcome : error_code) : ServiceManager :=
  if is_error outcome then m
  else mk_ServiceManager (S (next_id m)) (running m ++ [(next_id m, s)]).

(** A service factory holds the manager it was created with. *)
Record ServiceFactory : Set := mk_ServiceFactory {
  manager : ServiceManager
}.

(** ** Events: every call that leaves the client, in program order *)

(** [EvPost] is [io_service.post(boost::bind(callback_, type,
    p_user_service, ec))]: the call is queued on the engine's scheduler.
    [EvInvoke] would be a direct call [callback_(type, p_user_service, ec)]
    on the caller's stack. [EvDoSSFInitiate] hands the socket to the
    transport layer [T], which answers through [DoSSFStart]; [EvFiberize]
    hands it to the multiplexer together with the close handler. *)
Inductive Event : Set :=
| EvLog (level : LogLevel) (msg : string) (detail : option error_code)
| EvMakeSocket
| EvResolve (query : NetworkQuery)
| EvEngineStart
| EvAsyncConnect (ep : Endpoint)
| EvDemuxClose (d : Demux)
| EvSocketShutdown
| EvSocketClose
| EvEngineStop
| EvDoSSFInitiate (p_socket : option NetworkSocket)
| EvPost (cb : ClientCallback) (type : initialisation_type)
         (p_user_service : option BaseUserService) (ec : error_code)
| EvInvoke (cb : ClientCallback) (type : initialisation_type)
           (p_user_service : option BaseUserService) (ec : error_code)
| EvRegisterToCommandFactory (c : AdminCommand)
| EvFiberize (d : Demux) (sock : NetworkSocket)
| EvNewServiceManager
| EvCreateServiceFactory (d : Demux)
| EvRegisterToServiceFactory (k : ServiceKind) (cfg : ServiceConfig)
| EvCreateAdmin
| EvSetClient (us : list BaseUserService) (cb : option ClientCallback)
| EvManagerStart (s : ServiceName)
| EvFactoryDestroy (d : Demux)
| EvServiceStop (id : nat) (s : ServiceName).

(** ** The client *)

(** The members of [SSFClient], and the process-wide table of
    [ServiceFactoryManager<Demux>] that [OnDemuxClose] looks up. *)
Record SSFClient : Type := mk_SSFClient {
  async_engine_ : AsyncEngine;
  p_socket_ : option NetworkSocket;
  fiber_demux_ : Demux;
  user_services_ : list BaseUserService;
  services_config_ : Services;
  callback_ : option ClientCallback;
  service_factories : gmap nat ServiceFactory
}.

Definition set_async_engine (f : AsyncEngine -> AsyncEngine) (c : SSFClient)
    : SSFClient :=
  mk_SSFClient (f (async_engine_ c)) (p_socket_ c) (fiber_demux_ c)
    (user_services_ c) (services_config_ c) (callback_ c)
    (service_factories c).

Definition set_p_socket (p : option NetworkSocket) (c : SSFClient)
    : SSFClient :=
  mk_SSFClient (async_engine_ c) p (fiber_demux_ c)
    (user_services_ c) (services_config_ c) (callback_ c)
    (service_factories c).

Definition set_service_factories
    (f : gmap nat ServiceFactory -> gmap nat ServiceFactory) (c : SSFClient)
    : SSFClient :=
  mk_SSFClient (async_engine_ c) (p_socket_ c) (fiber_demux_ c)
    (user_services_ c) (services_config_ c) (callback_ c)
    (f (service_factories c)).

(** ** A state-and-trace monad for the member functions *)

Definition M (A : Type) : Type := SSFClient -> A * SSFClient * list Event.

Definition ret {A} (a : A) : M A := fun c => (a, c, []).

Definition result_of {A} (r : A * SSFClient * list Event) : A := r.1.1.
Definition state_of {A} (r : A * SSFClient * list Event) : SSFClient := r.1.2.
Definition trace_of {A} (r : A * SSFClient * list Event) : list Event := r.2.

Definition bind {A B} (m : M A) (k : A -> M B) : M B :=
  fun c =>
    let '(a, c1, t1) := m c in
    let '(b, c2, t2) := k a c1 in
    (b, c2, t1 ++ t2).

Definition emit (e : Event) : M unit := fun c => (tt, c, [e]).
Definition get : M SSFClient := fun c => (c, c, []).
Definition modify (f : SSFClient -> SSFClient) : M unit :=
  fun c => (tt, f c, []).

Notation "'let*' x ':=' m 'in' k" := (bind m (fun x => k))
  (at level 10, x name, m at level 100, k at level 200, only parsing).
Notation "m ';;' k" := (bind m (fun _ => k))
  (at level 100, k at level 200, right associativity, only parsing).

(** ** Member functions *)

(** [SSFClient::SSFClient]: the engine is not started, no socket yet. The
    demux address and the factory table are the surroundings the object is
    built in. *)
Definition SSFClient_new (user_services : list BaseUserService)
    (services_config : Services) (callback : option ClientCallback)
    (demux : Demux) (factories : gmap nat ServiceFactory) : SSFClient :=
  mk_SSFClient (mk_AsyncEngine false) None demux user_services
    services_config callback factories.

(** [SSFClient::Notify] *)
Definition Notify (type : initialisation_type)
    (p_user_service : option BaseUserService) (ec : error_code) : M unit :=
  let* c := get in
  match callback_ c with
  | Some cb => emit (EvPost cb type p_user_service ec)
  | None => ret tt
  end.

(** [SSFClient::Run]. [resolved] is what [resolver.resolve(query, ec)]
    answers: the code it stores in [ec] and the endpoint it points at. The
    result is the caller's [ec] on return. *)
Definition Run (query : NetworkQuery) (resolved : error_code * Endpoint)
    : M error_code :=
  let* c := get in
  if Engine.IsStarted (async_engine_ c) then
    emit (EvLog kLogError "client: already running"%string None) ;;
    ret (assign device_or_resource_busy ssf_category)
  else
    emit EvMakeSocket ;;
    modify (set_p_socket (Some Socket)) ;;
    emit (EvResolve query) ;;
    let ec := resolved.1 in
    if is_error ec then
      Notify NETWORK None ec ;;
      emit (EvLog kLogError
              "client: could not resolve network endpoint"%string None) ;;
      ret ec
    else
      modify (set_async_engine Engine.Start) ;;
      emit EvEngineStart ;;
      emit (EvAsyncConnect resolved.2) ;;
      ret ec.

(** [p_socket_->shutdown(shutdown_both, close_ec)] and
    [p_socket_->close(close_ec)]: each stores its outcome in [close_ec]. *)
Definition socket_shutdown (outcome : error_code) : M error_code :=
  emit EvSocketShutdown ;; ret outcome.

Definition socket_close (outcome : error_code) : M error_code :=
  emit EvSocketClose ;; ret outcome.

(** [SSFClient::Stop]. [shutdown_ec] and [close_ec] are the outcomes of the
    two socket calls. *)
Definition Stop (shutdown_ec close_ec : error_code) : M unit :=
  let* c := get in
  if negb (Engine.IsStarted (async_engine_ c)) then ret tt
  else
    emit (EvDemuxClose (fiber_demux_ c)) ;;
    match p_socket_ c with
    | Some _ =>
        let* close_ec1 := socket_shutdown shutdown_ec in
        let* close_ec2 := socket_close close_ec in
        ret tt
    | None => ret tt
    end ;;
    modify (set_async_engine Engine.Stop) ;;
    emit EvEngineStop ;;
    modify (set_p_socket None).

(** [SSFClient::NetworkToTransport] *)
Definition NetworkToTransport (ec : error_code) : M unit :=
  let* c := get in
  if negb (is_error ec) then
    emit (EvDoSSFInitiate (p_socket_ c))
  else
    emit (EvLog kLogError
            "client: error when connecting to server: "%string (Some ec)) ;;
    Notify NETWORK None ec.

(** Modelled from the spec: [ServiceFactory<Demux>::Create] is declared
    outside this file; it makes a factory around the manager and records it
    in the process-wide table under the multiplexer's identity. *)
Definition ServiceFactory_Create (d : Demux) (m : ServiceManager) : M unit :=
  emit (EvCreateServiceFactory d) ;;
  modify (set_service_factories (fun t => <[d := mk_ServiceFactory m]> t)).

(** Modelled from the spec: [ServiceManager::start], section 4.4. The
    manager is shared with the factory made from it, so the update goes to
    the factory's entry in the table. *)
Definition ServiceManager_start (d : Demux) (s : ServiceName)
    (outcome : error_code) : M error_code :=
  emit (EvManagerStart s) ;;
  modify (set_service_factories
            (alter (fun f => mk_ServiceFactory
                               (manager_start (manager f) s outcome)) d)) ;;
  ret outcome.

(** The nine [RegisterToServiceFactory] calls of [DoFiberize]. *)
Fixpoint register_services (cfg : Services) (ks : list ServiceKind)
    : M unit :=
  match ks with
  | [] => ret tt
  | k :: ks' =>
      emit (EvRegisterToServiceFactory k (config_of cfg k)) ;;
      register_services cfg ks'
  end.

(** [SSFClient::DoFiberize]. [admin_start] is the outcome of starting the
    Admin service; the result is the caller's [ec] on return. *)
Definition DoFiberize (p_socket : NetworkSocket) (admin_start : error_code)
    : M error_code :=
  let* c := get in
  emit (EvRegisterToCommandFactory CreateServiceRequest) ;;
  emit (EvRegisterToCommandFactory StopServiceRequest) ;;
  emit (EvRegisterToCommandFactory ServiceStatus) ;;
  emit (EvFiberize (fiber_demux_ c) p_socket) ;;
  emit EvNewServiceManager ;;
  ServiceFactory_Create (fiber_demux_ c) new_manager ;;
  register_services (services_config_ c) all_services ;;
  emit EvCreateAdmin ;;
  emit (EvSetClient (user_services_ c) (callback_ c)) ;;
  ServiceManager_start (fiber_demux_ c) Admin admin_start.

(** [SSFClient::DoSSFStart] *)
Definition DoSSFStart (p_socket : NetworkSocket) (ec : error_code)
    (admin_start : error_code) : M unit :=
  Notify NETWORK None ec ;;
  if negb (is_error ec) then
    emit (EvLog kLogTrace "client: SSF reply ok"%string None) ;;
    let* ec2 := DoFiberize p_socket admin_start in
    Notify TRANSPORT None ec
  else
    emit (EvLog kLogError "client: SSF protocol error"%string (Some ec)).

(** Modelled from the spec: [ServiceFactory::Destroy], section 4.3, stops
    every tracked service instance and clears the registry. *)
Definition ServiceFactory_Destroy (d : Demux) (f : ServiceFactory) : M unit :=
  fun c =>
    (tt, set_service_factories (delete d) c,
     EvFactoryDestroy d
       :: map (fun i => EvServiceStop i.1 i.2) (running (manager f))).

(** [SSFClient::OnDemuxClose] *)
Definition OnDemuxClose : M unit :=
  let* c := get in
  let p_service_factory := service_factories c !! fiber_demux_ c in
  match p_service_factory with
  | Some f => ServiceFactory_Destroy (fiber_demux_ c) f
  | None => ret tt
  end ;;
  Notify CLOSE None no_error.

(** ** Runs: the calls a client receives, one after another *)

(** The application calls [Run] and [Stop]; the engine delivers the
    completion of the connect ([NetworkToTransport]), of the handshake
    ([DoSSFStart]) and the multiplexer's close handler ([OnDemuxClose]).
    Each carries what the surroundings answer during the call. *)
Inductive Input : Set :=
| CallRun (query : NetworkQuery) (resolved : error_code * Endpoint)
| CallStop (shutdown_ec close_ec : error_code)
| ConnectDone (ec : error_code)
| HandshakeDone (p_socket : NetworkSocket) (ec : error_code)
                (admin_start : error_code)
| DemuxClosed.

Definition handle (i : Input) : M unit :=
  match i with
  | CallRun query resolved => Run query resolved ;; ret tt
  | CallStop shutdown_ec close_ec => Stop shutdown_ec close_ec
  | ConnectDone ec => NetworkToTransport ec
  | HandshakeDone p_socket ec admin_start => DoSSFStart p_socket ec admin_start
  | DemuxClosed => OnDemuxClose
  end.

(** The states a client can be in: built by the constructor, then driven by
    any calls; between two calls the service layer may change the factory
    table (services created or stopped through the Admin channel). *)
Inductive reachable : SSFClient -> Prop :=
| reachable_new us cfg cb d t :
    reachable (SSFClient_new us cfg cb d t)
| reachable_handle c i :
    reachable c -> reachable (state_of (handle i c))
| reachable_services c f :
    reachable c -> reachable (set_service_factories f c).

(** What the client has asked its surroundings for and not yet been
    answered: each asynchronous call of the source names the member
    function that answers it ([async_connect] with [NetworkToTransport], the
    transport layer with [DoSSFStart], [fiberize] with [OnDemuxClose]). *)
Inductive Pending : Set :=
| PendingConnect
| PendingHandshake
| PendingDemuxClose.

#[global] Instance Pending_eq_dec : EqDecision Pending.
Proof. solve_decision. Defined.

(** [async_connect] leaves a connect to complete, [DoSSFInitiate] a
    handshake, [fiberize] a close handler to fire; once the engine is
    halted nothing is delivered any more. *)
Definition pending_after_event (p : list Pending) (e : Event) : list Pending :=
  match e with
  | EvAsyncConnect _ => p ++ [PendingConnect]
  | EvDoSSFInitiate _ => p ++ [PendingHandshake]
  | EvFiberize _ _ => p ++ [PendingDemuxClose]
  | EvEngineStop => []
  | _ => p
  end.

Definition pending_after (p : list Pending) (t : list Event) : list Pending :=
  fold_left pending_after_event t p.

(** A completion can only be delivered while it is awaited. *)
Definition awaited (i : Input) : option Pending :=
  match i with
  | CallRun _ _ | CallStop _ _ => None
  | ConnectDone _ => Some PendingConnect
  | HandshakeDone _ _ _ => Some PendingHandshake
  | DemuxClosed => Some PendingDemuxClose
  end.

Fixpoint remove_first (x : Pending) (p : list Pending) : list Pending :=
  match p with
  | [] => []
  | y :: p' => if decide (x = y) then p' else y :: remove_first x p'
  end.

Record Session : Type := mk_Session {
  client : SSFClient;
  pending : list Pending;
  launched : bool;
  history : list Event
}.

Definition Session_new (c : SSFClient) : Session := mk_Session c [] false [].

Definition engine_started_in (t : list Event) : bool :=
  existsb (fun e => match e with EvEngineStart => true | _ => false end) t.

Definition session_step (s : Session) (i : Input) : option Session :=
  let p :=
    match awaited i with
    | None => Some (pending s)
    | Some w =>
        if decide (w ∈ pending s) then Some (remove_first w (pending s))
        else None
    end in
  match p with
  | None => None
  | Some p' =>
      let r := handle i (client s) in
      Some (mk_Session (state_of r)
              (pending_after p' (trace_of r))
              (launched s || engine_started_in (trace_of r))
              (history s ++ trace_of r))
  end.

Fixpoint session_run (s : Session) (inputs : list Input) : option Session :=
  match inputs with
  | [] => Some s
  | i :: rest =>
      match session_step s i with
      | Some s' => session_run s' rest
      | None => None
      end
  end.

(** The connection states of section 3 of the specification that can be
    observed between two calls, read off a session: what it awaits tells
    where it is; a session that was started and awaits nothing is over. *)
Inductive ConnectionState : Set :=
| Idle | Connecting | Handshaking | Running | Closed.

Definition connection_state (s : Session) : ConnectionState :=
  if decide (PendingConnect ∈ pending s) then Connecting
  else if decide (PendingHandshake ∈ pending s) then Handshaking
  else if decide (PendingDemuxClose ∈ pending s) then Running
  else if launched s then Closed
  else Idle.

(** ** Reading a trace *)

Definition is_post (type : initialisation_type) (e : Event) : bool :=
  match e with
  | EvPost _ t _ _ => bool_decide (t = type)
  | _ => false
  end.

(** The notifications of one kind posted to the scheduler, in order. *)
Definition posts (type : initialisation_type) (t : list Event) : list Event :=
  List.filter (is_post type) t.

Definition is_fiberize (e : Event) : bool :=
  match e with EvFiberize _ _ => true | _ => false end.

Definition is_invoke (e : Event) : bool :=
  match e with EvInvoke _ _ _ _ => true | _ => false end.

Definition is_network_action (e : Event) : bool :=
  match e with
  | EvMakeSocket | EvResolve _ | EvAsyncConnect _ | EvEngineStart => true
  | _ => false
  end.

Definition registers (k : ServiceKind) (e : Event) : bool :=
  match e with
  | EvRegisterToServiceFactory k' _ => bool_decide (k' = k)
  | _ => false
  end.

Definition is_create_factory (e : Event) : bool :=
  match e with EvCreateServiceFactory _ => true | _ => false end.

Definition is_manager_start (e : Event) : bool :=
  match e with EvManagerStart _ => true | _ => false end.

(** What [Notify] posts for a client when it is called, as everywhere in
    this file, with no user service: one entry with a callback, none
    without. *)
Definition notified (c : SSFClient) (type : initialisation_type)
    (ec : error_code) : list Event :=
  match callback_ c with
  | Some cb => [EvPost cb type None ec]
  | None => []
  end.

(** The stops that destroying a factory cascades to. *)
Definition stop_events (f : ServiceFactory) : list Event :=
  map (fun i => EvServiceStop i.1 i.2) (running (manager f)).

(** The registrations of [DoFiberize], as events. *)
Definition registrations (cfg : Services) : list Event :=
  map (fun k => EvRegisterToServiceFactory k (config_of cfg k)) all_services.

(** Where a service stands in the registration order. *)
Definition registration_rank (k : ServiceKind) : nat :=
  match k with
  | SocksServer => 0
  | FibersToSockets => 1
  | SocketsToFibers => 2
  | FibersToDatagrams => 3
  | DatagramsToFibers => 4
  | FileToFiber => 5
  | FiberToFile => 6
  | FileEnquirer => 7
  | ProcessServer => 8
  end.

(** The client [Stop] leaves behind when the engine was started. *)
Definition stopped (c : SSFClient) : SSFClient :=
  set_p_socket None (set_async_engine Engine.Stop c).

(** The client [DoFiberize] leaves behind: a fresh factory is recorded for
    the multiplexer, and its manager has been asked to start Admin. *)
Definition fiberized (admin_start : error_code) (c : SSFClient) : SSFClient :=
  set_service_factories
    (alter (fun f => mk_ServiceFactory
                       (manager_start (manager f) Admin admin_start))
           (fiber_demux_ c))
    (set_service_factories
       (fun t => <[fiber_demux_ c := mk_ServiceFactory new_manager]> t) c).

(** An event is fine for a client when it is not a direct call of the
    application callback, and, if it posts a call, the call is to the
    client's own callback with no user service. *)
Definition posted_not_invoked (c : SSFClient) (e : Event) : Prop :=
  match e with
  | EvInvoke _ _ _ _ => False
  | EvPost cb _ p _ => callback_ c = Some cb /\ p = None
  | _ => True
  end.

(** The engine runs only with a socket at hand. *)
Definition socket_while_started (c : SSFClient) : Prop :=
  Engine.IsStarted (async_engine_ c) = true -> is_Some (p_socket_ c).

(** The Close notifications a run is owed by the code: one for each close
    signal of the multiplexer, always with the empty error code. *)
Definition close_posts (c : SSFClient) (inputs : list Input) : list Event :=
  flat_map (fun i => match i with
                     | DemuxClosed => notified c CLOSE no_error
                     | _ => []
                     end) inputs.

(** A session awaits at most one completion, none while the engine is
    halted, and the close handler only with a factory in the table. *)
Definition session_ok (s : Session) : Prop :=
  (Engine.IsStarted (async_engine_ (client s)) = false -> pending s = []) /\
  (length (pending s) <= 1)%nat /\
  (PendingDemuxClose ∈ pending s ->
   is_Some (service_factories (client s) !! fiber_demux_ (client s))).

(** ** Sample clients and runs *)

Definition sample_config : Services :=
  mk_Services (Config "socks") (Config "stream_forwarder")
    (Config "stream_listener") (Config "datagram_forwarder")
    (Config "datagram_listener") (Config "file_copy") (Config "process").

(** A client built with a callback, and one built with an empty one. *)
Definition sample_client : SSFClient :=
  SSFClient_new [UserService "socks"] sample_config (Some (Callback 1))
    7%nat ∅.

Definition silent_client : SSFClient :=
  SSFClient_new [UserService "socks"] sample_config None 7%nat ∅.

Definition sample_query : NetworkQuery := Query "relay.example:8011".
Definition sample_endpoint : Endpoint := EndpointOf "192.0.2.1:8011".

(** Some failure, here [ECONNREFUSED]. *)
Definition refused : error_code := mk_error_code 111 system_category.

(** Some failure of the Admin service to start, here [EADDRINUSE]. *)
Definition admin_failed : error_code := mk_error_code 98 system_category.

(** [sample_client] after a [Run] whose resolution succeeded. *)
Definition started_client : SSFClient :=
  state_of (Run sample_query (no_error, sample_endpoint) sample_client).

(** [sample_client] once the multiplexer runs: started, connected, handshake
    done, Admin service started. *)
Definition running_client : SSFClient :=
  state_of (DoSSFStart Socket no_error no_error started_client).

(** The same for [silent_client]. *)
Definition silent_running_client : SSFClient :=
  state_of (DoSSFStart Socket no_error no_error
    (state_of (Run sample_query (no_error, sample_endpoint) silent_client))).

(** The run of the handshake scenarios: [Run] resolves, the connect
    completes with [connected], the handshake completes with [ec]. *)
Definition handshake_run (query : NetworkQuery)
    (resolved : error_code * Endpoint) (connected : error_code)
    (p_socket : NetworkSocket) (ec admin_start : error_code) : list Input :=
  [CallRun query resolved; ConnectDone connected;
   HandshakeDone p_socket ec admin_start].

(** A session that runs, sees the multiplexer close, and is over. *)
Definition closed_run : list Input :=
  handshake_run sample_query (no_error, sample_endpoint) no_error Socket
    no_error no_error ++ [DemuxClosed].

(** ** The claims that fail, read to the letter *)

(** C10 to the letter: the failed resolution is reported to the caller, one
    Network notification with that code is posted, the engine stays halted,
    and a later [Run] goes on to resolve. *)
Definition resolution_failure_notified (c : SSFClient) (query : NetworkQuery)
    (resolved : error_code * Endpoint) : Prop :=
  let r := Run query resolved c in
  result_of r = resolved.1 /\
  (exists cb, posts NETWORK (trace_of r) = [EvPost cb NETWORK None resolved.1]) /\
  Engine.IsStarted (async_engine_ (state_of r)) = false /\
  forall query' resolved',
    result_of (Run query' resolved' (state_of r)) = resolved'.1.

(** C2 to the letter, for one run: exactly one Network notification with
    the failure, no Transport notification, no fiberization, Closed. *)
Definition handshake_failure_notified_once (c : SSFClient)
    (inputs : list Input) (ec : error_code) : Prop :=
  exists s,
    session_run (Session_new c) inputs = Some s /\
    (exists cb, posts NETWORK (history s) = [EvPost cb NETWORK None ec]) /\
    posts TRANSPORT (history s) = [] /\
    List.filter is_fiberize (history s) = [] /\
    connection_state s = Closed.

(** C6 to the letter: the handler's effects end with a Close notification,
    and the factory was destroyed before it. *)
Definition close_destroys_then_notifies (c : SSFClient) : Prop :=
  exists before cb ec,
    trace_of (OnDemuxClose c) = before ++ [EvPost cb CLOSE None ec] /\
    EvFactoryDestroy (fiber_demux_ c) ∈ before.

(** C4 to the letter, for one run: once the session is over, exactly one
    Close notification has been posted. *)
Definition one_close_when_over (c : SSFClient) (inputs : list Input) : Prop :=
  forall s,
    session_run (Session_new c) inputs = Some s ->
    connection_state s = Closed ->
    exists cb ec, posts CLOSE (history s) = [EvPost cb CLOSE None ec].

(** ** Whole lives of a client *)


(** Any calls, one after another, whether or not the surroundings could
    make them in that order. *)
Fixpoint run_calls (inputs : list Input) : M unit :=
  match inputs with
  | [] => ret tt
  | i :: rest => handle i ;; run_calls rest
  end.

Definition is_engine_start (e : Event) : bool :=
  match e with EvEngineStart => true | _ => false end.

Definition is_engine_stop (e : Event) : bool :=
  match e with EvEngineStop => true | _ => false end.

Definition is_async_connect (e : Event) : bool :=
  match e with EvAsyncConnect _ => true | _ => false end.

Definition is_initiate (e : Event) : bool :=
  match e with EvDoSSFInitiate _ => true | _ => false end.

Definition is_create_admin (e : Event) : bool :=
  match e with EvCreateAdmin => true | _ => false end.

Definition is_any_post (e : Event) : bool :=
  match e with EvPost _ _ _ _ => true | _ => false end.

(** How many events of a trace satisfy a test. *)
Definition count (p : Event -> bool) (t : list Event) : nat :=
  length (List.filter p t).

(** One when the engine is started, zero when it is not. *)
Definition engine_runs (c : SSFClient) : nat :=
  if Engine.IsStarted (async_engine_ c) then 1%nat else 0%nat.

(** A test that says no to every posted notification and to every service
    stop. *)
Definition ignores_posts (p : Event -> bool) : Prop :=
  forall cb type u ec, p (EvPost cb type u ec) = false.

Definition ignores_stops (p : Event -> bool) : Prop :=
  forall id s, p (EvServiceStop id s) = false.


(** A run whose connect fails. *)
Definition connect_run (query : NetworkQuery)
    (resolved : error_code * Endpoint) (connected : error_code)
    : list Input :=
  [CallRun query resolved; ConnectDone connected].




(** What [Run] answers on a started client. *)
Definition already_running : error_code :=
  assign device_or_resource_busy ssf_category.

(** * Properties *)

(** ** The member functions, as equations *)

(** Computes with the monad, leaving the member functions, the factory
    table and the tests as they are written. *)
Ltac monad := cbv beta iota zeta delta [bind get emit modify ret].

Lemma Notify_eq type p ec c :
  Notify type p ec c =
    (tt, c,
     match callback_ c with
     | Some cb => [EvPost cb type p ec]
     | None => []
     end).
Proof. unfold Notify. monad. destruct (callback_ c); reflexivity. Qed.

Lemma Notify_none type ec c :
  Notify type None ec c = (tt, c, notified c type ec).
Proof. apply Notify_eq. Qed.

Lemma Run_eq c query resolved :
  Run query resolved c =
    if Engine.IsStarted (async_engine_ c) then
      (assign device_or_resource_busy ssf_category, c,
       [EvLog kLogError "client: already running" None])
    else if is_error resolved.1 then
      (resolved.1, set_p_socket (Some Socket) c,
       [EvMakeSocket; EvResolve query] ++ notified c NETWORK resolved.1 ++
       [EvLog kLogError "client: could not resolve network endpoint"
          None])
    else
      (resolved.1,
       set_async_engine Engine.Start (set_p_socket (Some Socket) c),
       [EvMakeSocket; EvResolve query; EvEngineStart;
        EvAsyncConnect resolved.2]).
Proof.
  unfold Run. monad.
  destruct (Engine.IsStarted (async_engine_ c)); monad; [reflexivity |].
  destruct (is_error resolved.1); monad; [| reflexivity].
  rewrite Notify_none. reflexivity.
Qed.

Lemma Stop_eq c shutdown_ec close_ec :
  Stop shutdown_ec close_ec c =
    if Engine.IsStarted (async_engine_ c) then
      (tt, stopped c,
       [EvDemuxClose (fiber_demux_ c)] ++
       match p_socket_ c with
       | Some _ => [EvSocketShutdown; EvSocketClose]
       | None => []
       end ++ [EvEngineStop])
    else (tt, c, []).
Proof.
  unfold Stop, socket_shutdown, socket_close. monad.
  destruct (Engine.IsStarted (async_engine_ c)); cbn [negb];
    [| reflexivity].
  destruct (p_socket_ c); monad; reflexivity.
Qed.

Lemma NetworkToTransport_eq c ec :
  NetworkToTransport ec c =
    if is_error ec then
      (tt, c,
       [EvLog kLogError "client: error when connecting to server: "
          (Some ec)] ++
       notified c NETWORK ec)
    else (tt, c, [EvDoSSFInitiate (p_socket_ c)]).
Proof.
  unfold NetworkToTransport. monad.
  destruct (is_error ec); cbn [negb]; [| reflexivity].
  rewrite Notify_none. reflexivity.
Qed.

Lemma register_services_eq cfg ks c :
  register_services cfg ks c =
    (tt, c, map (fun k => EvRegisterToServiceFactory k (config_of cfg k)) ks).
Proof.
  revert c. induction ks as [| k ks IH]; intros c; [reflexivity |].
  cbn [register_services map]. monad. rewrite IH. reflexivity.
Qed.

Lemma DoFiberize_eq c p_socket admin_start :
  DoFiberize p_socket admin_start c =
    (admin_start, fiberized admin_start c,
     [EvRegisterToCommandFactory CreateServiceRequest;
      EvRegisterToCommandFactory StopServiceRequest;
      EvRegisterToCommandFactory ServiceStatus;
      EvFiberize (fiber_demux_ c) p_socket;
      EvNewServiceManager;
      EvCreateServiceFactory (fiber_demux_ c)] ++
     registrations (services_config_ c) ++
     [EvCreateAdmin;
      EvSetClient (user_services_ c) (callback_ c);
      EvManagerStart Admin]).
Proof.
  reflexivity.
Qed.

Lemma DoSSFStart_eq c p_socket ec admin_start :
  DoSSFStart p_socket ec admin_start c =
    if is_error ec then
      (tt, c,
       notified c NETWORK ec ++
       [EvLog kLogError "client: SSF protocol error" (Some ec)])
    else
      (tt, fiberized admin_start c,
       notified c NETWORK ec ++
       [EvLog kLogTrace "client: SSF reply ok" None] ++
       trace_of (DoFiberize p_socket admin_start c) ++
       notified c TRANSPORT ec).
Proof.
  unfold DoSSFStart. monad. rewrite Notify_none. monad.
  destruct (is_error ec); cbn [negb]; [reflexivity |].
  rewrite DoFiberize_eq. monad. rewrite Notify_none. monad.
  reflexivity.
Qed.

Lemma OnDemuxClose_eq c :
  OnDemuxClose c =
    match service_factories c !! fiber_demux_ c with
    | Some f =>
        (tt, set_service_factories (delete (fiber_demux_ c)) c,
         [EvFactoryDestroy (fiber_demux_ c)] ++ stop_events f ++
         notified c CLOSE no_error)
    | None => (tt, c, notified c CLOSE no_error)
    end.
Proof.
  unfold OnDemuxClose, ServiceFactory_Destroy. monad.
  destruct (service_factories c !! fiber_demux_ c) as [f|]; monad;
    rewrite Notify_none; reflexivity.
Qed.

Lemma Run_then_ret c query resolved :
  bind (Run query resolved) (fun _ => ret tt) c =
    (tt, state_of (Run query resolved c), trace_of (Run query resolved c)).
Proof.
  unfold bind at 1, ret, state_of, trace_of.
  destruct (Run query resolved c) as [[ec c'] t]. cbn [fst snd].
  now rewrite app_nil_r.
Qed.

Lemma handle_CallRun c query resolved :
  handle (CallRun query resolved) c =
    (tt, state_of (Run query resolved c), trace_of (Run query resolved c)).
Proof. apply Run_then_ret. Qed.

(** Rewrites a call into its equation and splits on the tests it makes. *)
Ltac by_equations :=
  rewrite ?handle_CallRun;
  cbn [handle result_of state_of trace_of fst snd];
  rewrite ?Run_eq, ?Stop_eq, ?NetworkToTransport_eq,
    ?DoSSFStart_eq, ?DoFiberize_eq, ?OnDemuxClose_eq;
  repeat match goal with
  | |- context [if ?b then _ else _] => destruct b eqn:?
  | |- context [match ?o with Some _ => _ | None => _ end] =>
      destruct o eqn:?
  end;
  cbn [result_of state_of trace_of fst snd].

(** ** What the calls leave untouched *)

Lemma handle_callback i c : callback_ (state_of (handle i c)) = callback_ c.
Proof. destruct i; by_equations; reflexivity. Qed.

Lemma handle_fiber_demux i c :
  fiber_demux_ (state_of (handle i c)) = fiber_demux_ c.
Proof. destruct i; by_equations; reflexivity. Qed.

Lemma handle_socket_while_started i c :
  socket_while_started c -> socket_while_started (state_of (handle i c)).
Proof.
  unfold socket_while_started. intros Hinv.
  destruct i; by_equations; cbn; intros; eauto; discriminate.
Qed.

Lemma reachable_socket_while_started c :
  reachable c -> socket_while_started c.
Proof.
  induction 1 as [us cfg cb d t | c i _ IH | c f _ IH].
  - intros Hs. discriminate Hs.
  - now apply handle_socket_while_started.
  - exact IH.
Qed.

Lemma started_client_reachable : reachable started_client.
Proof.
  change started_client with
    (state_of (handle (CallRun sample_query (no_error, sample_endpoint))
                 sample_client)).
  apply reachable_handle, reachable_new.
Qed.

(** ** Reading traces *)

Lemma posts_app type t1 t2 :
  posts type (t1 ++ t2) = posts type t1 ++ posts type t2.
Proof. unfold posts. apply List.filter_app. Qed.

Lemma posts_notified c type type' ec :
  posts type (notified c type' ec) =
    if decide (type' = type) then notified c type' ec else [].
Proof.
  unfold notified, posts. destruct (callback_ c) as [cb|]; cbn.
  - destruct (decide (type' = type)) as [Heq | Hne].
    + now rewrite bool_decide_eq_true_2.
    + now rewrite bool_decide_eq_false_2.
  - destruct (decide (type' = type)); reflexivity.
Qed.

Lemma posts_notified_same c type ec :
  posts type (notified c type ec) = notified c type ec.
Proof.
  rewrite posts_notified. destruct (decide (type = type)); congruence.
Qed.

Lemma posts_stop_events type f : posts type (stop_events f) = [].
Proof.
  unfold stop_events. induction (running (manager f)) as [| i l IH];
    [reflexivity | exact IH].
Qed.

Lemma posts_registrations type cfg : posts type (registrations cfg) = [].
Proof. reflexivity. Qed.

Lemma notified_callback c c' type ec :
  callback_ c' = callback_ c -> notified c' type ec = notified c type ec.
Proof. unfold notified. now intros ->. Qed.

Lemma notified_posted c type ec :
  Forall (posted_not_invoked c) (notified c type ec).
Proof.
  unfold notified. destruct (callback_ c) as [cb|] eqn:Hcb;
    repeat constructor. exact Hcb.
Qed.

Lemma stop_events_posted c f : Forall (posted_not_invoked c) (stop_events f).
Proof.
  unfold stop_events. induction (running (manager f)); constructor;
    [exact I | assumption].
Qed.

Lemma registrations_posted c cfg :
  Forall (posted_not_invoked c) (registrations cfg).
Proof. repeat constructor. Qed.

(** ** C9: an empty callback makes [Notify] do nothing *)

(** C9. If the client was built with an empty callback, a call to [Notify]
    posts nothing to the scheduler, returns normally and leaves the client
    as it was, whatever the notification kind, the user service and the
    error code. *)
Theorem Notify_empty_callback_noop (c : SSFClient)
    (type : initialisation_type) (p_user_service : option BaseUserService)
    (ec : error_code) :
  callback_ c = None ->
  Notify type p_user_service ec c = (tt, c, []).
Proof. intros Hcb. rewrite Notify_eq, Hcb. reflexivity. Qed.

Lemma Notify_empty_callback_noop_witness :
  callback_ silent_client = None /\
  Notify CLOSE None refused silent_client = (tt, silent_client, []).
Proof.
  split; [reflexivity |].
  apply (Notify_empty_callback_noop silent_client CLOSE None refused).
  reflexivity.
Defined.

(** ** C5: [Run] on a started client *)

(** C5. On a client whose engine is already started, [Run] returns at once
    with the caller's error code set to device-or-resource-busy in the SSF
    category, which is an error; it changes nothing in the client, and its
    only effect is one log line: no socket is made, nothing is resolved,
    the engine is not started again and no connect is issued. *)
Theorem Run_rejected_when_started (c : SSFClient) (query : NetworkQuery)
    (resolved : error_code * Endpoint) :
  Engine.IsStarted (async_engine_ c) = true ->
  Run query resolved c =
    (assign device_or_resource_busy ssf_category, c,
     [EvLog kLogError "client: already running" None]) /\
  is_error (result_of (Run query resolved c)) = true /\
  List.filter is_network_action (trace_of (Run query resolved c)) = [].
Proof.
  intros Hs. rewrite Run_eq, Hs. repeat split.
Qed.

Lemma Run_rejected_when_started_witness :
  Engine.IsStarted (async_engine_ started_client) = true /\
  result_of (Run sample_query (no_error, sample_endpoint) started_client) =
    mk_error_code 16 ssf_category.
Proof.
  split; [reflexivity |].
  destruct (Run_rejected_when_started started_client sample_query
              (no_error, sample_endpoint)) as [Heq _]; [reflexivity |].
  rewrite Heq. reflexivity.
Defined.

(** ** C3: [Stop] *)

(** C3. In every state a client can be in with its engine started, [Stop]
    closes the multiplexer, shuts the socket down and closes it, halts the
    engine and releases the socket, in this order; what the two socket
    calls report plays no part in the result. The client it leaves has its
    engine halted and no socket, and on that client any further [Stop]
    returns at once with no effect and no change, as [Stop] does on every
    client whose engine is not started. *)
Theorem Stop_idempotent (c : SSFClient) (shutdown_ec close_ec : error_code) :
  reachable c ->
  Engine.IsStarted (async_engine_ c) = true ->
  let c' := state_of (Stop shutdown_ec close_ec c) in
  trace_of (Stop shutdown_ec close_ec c) =
    [EvDemuxClose (fiber_demux_ c); EvSocketShutdown; EvSocketClose;
     EvEngineStop] /\
  Engine.IsStarted (async_engine_ c') = false /\
  p_socket_ c' = None /\
  (forall e1 e2, Stop e1 e2 c = Stop shutdown_ec close_ec c) /\
  (forall e1 e2, Stop e1 e2 c' = (tt, c', [])) /\
  (forall e1 e2 e3 e4,
     Stop e3 e4 (state_of (Stop e1 e2 c')) = (tt, c', [])) /\
  (forall c0 e1 e2,
     Engine.IsStarted (async_engine_ c0) = false ->
     Stop e1 e2 c0 = (tt, c0, [])).
Proof.
  intros Hreach Hs.
  destruct (reachable_socket_while_started c Hreach Hs) as [sock Hp].
  assert (Hstop : forall e1 e2, Stop e1 e2 c =
            (tt, stopped c,
             [EvDemuxClose (fiber_demux_ c); EvSocketShutdown; EvSocketClose;
              EvEngineStop])).
  { intros e1 e2. rewrite Stop_eq, Hs, Hp. reflexivity. }
  assert (Hagain : forall e1 e2, Stop e1 e2 (stopped c) = (tt, stopped c, [])).
  { intros e1 e2. rewrite Stop_eq. reflexivity. }
  cbv zeta. rewrite Hstop. unfold state_of, trace_of. cbn [fst snd].
  split; [reflexivity |]. split; [reflexivity |]. split; [reflexivity |].
  split; [intros e1 e2; apply Hstop |]. split; [exact Hagain |].
  split.
  - intros e1 e2 e3 e4. rewrite (Hagain e1 e2). exact (Hagain e3 e4).
  - intros c0 e1 e2 H0. rewrite Stop_eq, H0. reflexivity.
Qed.

Lemma Stop_idempotent_witness :
  reachable started_client /\
  Engine.IsStarted (async_engine_ started_client) = true /\
  trace_of (Stop refused no_error started_client) =
    [EvDemuxClose 7%nat; EvSocketShutdown; EvSocketClose; EvEngineStop].
Proof.
  split; [exact started_client_reachable |].
  split; [reflexivity |].
  destruct (Stop_idempotent started_client refused no_error
              started_client_reachable eq_refl) as [Ht _].
  exact Ht.
Defined.

(** ** C10: [Run] when the endpoint cannot be resolved *)

(** C10, as stated, fails on a client built with an empty callback: its
    engine is not started, the resolution fails, and nothing is posted. *)
Lemma Run_resolution_failure_silent :
  Engine.IsStarted (async_engine_ silent_client) = false /\
  is_error refused = true /\
  ~ resolution_failure_notified silent_client sample_query
      (refused, sample_endpoint).
Proof.
  split; [reflexivity |]. split; [reflexivity |].
  intros (_ & [cb Hposts] & _). vm_compute in Hposts. discriminate Hposts.
Qed.

(** C10, amended. If the resolution fails inside [Run] (engine not
    started on entry), [Run] hands the resolver's code back to the caller,
    posts one Network notification with that code when the client has a
    callback and none when it has not, logs, and returns with the engine
    still halted: it never starts the engine and issues no connect. A later
    [Run] on the same client is then not turned away as already running: it
    makes a socket, resolves, and reports the resolver's own code. *)
Theorem Run_resolution_failure (c : SSFClient) (query : NetworkQuery)
    (resolved : error_code * Endpoint) :
  Engine.IsStarted (async_engine_ c) = false ->
  is_error resolved.1 = true ->
  let r := Run query resolved c in
  result_of r = resolved.1 /\
  trace_of r =
    [EvMakeSocket; EvResolve query] ++ notified c NETWORK resolved.1 ++
    [EvLog kLogError "client: could not resolve network endpoint" None]
    /\
  posts NETWORK (trace_of r) = notified c NETWORK resolved.1 /\
  Engine.IsStarted (async_engine_ (state_of r)) = false /\
  forall query' resolved',
    result_of (Run query' resolved' (state_of r)) = resolved'.1 /\
    exists t,
      trace_of (Run query' resolved' (state_of r)) =
        EvMakeSocket :: EvResolve query' :: t.
Proof.
  intros Hs Herr. cbv zeta. rewrite Run_eq, Hs, Herr.
  unfold result_of, state_of, trace_of. cbn [fst snd].
  split; [reflexivity |]. split; [reflexivity |].
  split.
  { rewrite !posts_app, posts_notified_same. cbn. apply app_nil_r. }
  split; [exact Hs |].
  intros query' resolved'. rewrite Run_eq.
  change (Engine.IsStarted (async_engine_ (set_p_socket (Some Socket) c)))
    with (Engine.IsStarted (async_engine_ c)).
  rewrite Hs.
  destruct (is_error resolved'.1); cbn [fst snd]; split; eauto.
Qed.

Lemma Run_resolution_failure_witness :
  Engine.IsStarted (async_engine_ sample_client) = false /\
  is_error refused = true /\
  posts NETWORK
    (trace_of (Run sample_query (refused, sample_endpoint) sample_client)) =
    [EvPost (Callback 1) NETWORK None refused].
Proof.
  split; [reflexivity |]. split; [reflexivity |].
  destruct (Run_resolution_failure sample_client sample_query
              (refused, sample_endpoint) eq_refl eq_refl)
    as (_ & _ & Hposts & _).
  exact Hposts.
Defined.

(** ** C2: a run whose handshake fails *)

(** C2, as stated, fails on a client built with an empty callback: the
    connect succeeds, the handshake fails, and no Network notification is
    posted where the claim counts exactly one. *)
Lemma handshake_failure_silent :
  ~ handshake_failure_notified_once silent_client
      (handshake_run sample_query (no_error, sample_endpoint) no_error
         Socket refused no_error)
      refused.
Proof.
  intros (s & Hrun & [cb Hposts] & _).
  vm_compute in Hrun. injection Hrun as <-.
  vm_compute in Hposts. discriminate Hposts.
Qed.

(** C2, amended. Take a client whose engine is not started; [Run] resolves
    its endpoint, the connect completes without error and the handshake
    completes with a failure code. Then over the whole run the Network
    notifications posted are exactly one, carrying that failure, when the
    client has a callback, and none when it has not; no Transport
    notification is posted; the transport is never fiberized; and the
    session ends Closed: it was started and awaits nothing more. *)
Theorem handshake_failure_run (c : SSFClient) (query : NetworkQuery)
    (resolved : error_code * Endpoint) (connected : error_code)
    (p_socket : NetworkSocket) (ec admin_start : error_code) :
  Engine.IsStarted (async_engine_ c) = false ->
  is_error resolved.1 = false ->
  is_error connected = false ->
  is_error ec = true ->
  exists s,
    session_run (Session_new c)
      (handshake_run query resolved connected p_socket ec admin_start)
      = Some s /\
    posts NETWORK (history s) = notified c NETWORK ec /\
    posts TRANSPORT (history s) = [] /\
    List.filter is_fiberize (history s) = [] /\
    pending s = [] /\
    connection_state s = Closed.
Proof.
  intros Hs Hres Hconn Herr.
  set (c1 := set_async_engine Engine.Start (set_p_socket (Some Socket) c)).
  set (t1 := [EvMakeSocket; EvResolve query; EvEngineStart;
              EvAsyncConnect resolved.2]).
  assert (H1 : session_step (Session_new c) (CallRun query resolved) =
                 Some (mk_Session c1 [PendingConnect] true t1)).
  { unfold session_step, Session_new.
    cbn [awaited client pending launched history].
    rewrite handle_CallRun, Run_eq, Hs, Hres. reflexivity. }
  assert (H2 : session_step (mk_Session c1 [PendingConnect] true t1)
                 (ConnectDone connected) =
                 Some (mk_Session c1 [PendingHandshake] true
                         (t1 ++ [EvDoSSFInitiate (Some Socket)]))).
  { unfold session_step.
    cbn [awaited client pending launched history handle].
    rewrite NetworkToTransport_eq, Hconn. reflexivity. }
  assert (H3 : session_step
                 (mk_Session c1 [PendingHandshake] true
                    (t1 ++ [EvDoSSFInitiate (Some Socket)]))
                 (HandshakeDone p_socket ec admin_start) =
                 Some (mk_Session c1 [] true
                         ((t1 ++ [EvDoSSFInitiate (Some Socket)]) ++
                          notified c NETWORK ec ++
                          [EvLog kLogError "client: SSF protocol error"
                             (Some ec)]))).
  { unfold session_step.
    cbn [awaited client pending launched history handle].
    rewrite DoSSFStart_eq, Herr.
    change (notified c1 NETWORK ec) with (notified c NETWORK ec).
    unfold notified. destruct (callback_ c); reflexivity. }
  eexists. split.
  { unfold handshake_run. cbn [session_run]. rewrite H1, H2, H3. reflexivity. }
  cbn [history pending].
  rewrite !posts_app, !List.filter_app, posts_notified_same, posts_notified.
  unfold notified. destruct (callback_ c) as [cb|]; repeat split.
Qed.

Lemma handshake_failure_run_witness :
  Engine.IsStarted (async_engine_ sample_client) = false /\
  is_error no_error = false /\
  is_error refused = true /\
  exists s,
    session_run (Session_new sample_client)
      (handshake_run sample_query (no_error, sample_endpoint) no_error
         Socket refused no_error) = Some s /\
    posts NETWORK (history s) = [EvPost (Callback 1) NETWORK None refused] /\
    connection_state s = Closed.
Proof.
  split; [reflexivity |]. split; [reflexivity |]. split; [reflexivity |].
  destruct (handshake_failure_run sample_client sample_query
              (no_error, sample_endpoint) no_error Socket refused no_error
              eq_refl eq_refl eq_refl eq_refl)
    as (s & Hrun & Hposts & _ & _ & _ & Hstate).
  exists s. repeat split; assumption.
Defined.

(** ** Sessions: what is awaited, and the factory behind a running
    multiplexer *)

Lemma pending_after_app p t1 t2 :
  pending_after p (t1 ++ t2) = pending_after (pending_after p t1) t2.
Proof. apply fold_left_app. Qed.

Lemma pending_after_notified p c type ec :
  pending_after p (notified c type ec) = p.
Proof. unfold notified. destruct (callback_ c); reflexivity. Qed.

Lemma pending_after_stop_events p f : pending_after p (stop_events f) = p.
Proof.
  unfold stop_events. induction (running (manager f)) as [| i l IH];
    [reflexivity | exact IH].
Qed.

Lemma pending_after_registrations p cfg :
  pending_after p (registrations cfg) = p.
Proof. reflexivity. Qed.

Lemma awaited_alone (w : Pending) (p : list Pending) :
  (length p <= 1)%nat -> w ∈ p -> p = [w].
Proof.
  destruct p as [| x [| y p]]; cbn; intros Hlen Hin.
  - inversion Hin.
  - apply list_elem_of_singleton in Hin. now subst.
  - lia.
Qed.

Lemma session_step_ok s i s' :
  session_ok s -> session_step s i = Some s' -> session_ok s'.
Proof.
  intros (Hidle & Hlen & Hfac) Hstep. unfold session_step in Hstep.
  destruct i; cbn [awaited] in Hstep.
  - (* Run *)
    injection Hstep as <-. unfold session_ok.
    cbn [client pending]. rewrite Run_then_ret, Run_eq.
    cbn [state_of trace_of fst snd].
    destruct (Engine.IsStarted (async_engine_ (client s))) eqn:Hs;
      cbn [state_of trace_of fst snd].
    + repeat split; auto. intros Hs'. congruence.
    + rewrite (Hidle eq_refl).
      destruct (is_error resolved.1); cbn [state_of trace_of fst snd];
        rewrite ?pending_after_app, ?pending_after_notified; cbn.
      * repeat split; auto. intros Hin. inversion Hin.
      * repeat split; auto; try discriminate.
        intros Hin. apply list_elem_of_singleton in Hin. discriminate Hin.
  - (* Stop *)
    injection Hstep as <-. unfold session_ok.
    cbn [client pending handle]. rewrite Stop_eq.
    destruct (Engine.IsStarted (async_engine_ (client s))) eqn:Hs;
      cbn [state_of trace_of fst snd].
    + assert (Hp : pending_after (pending s)
                     ([EvDemuxClose (fiber_demux_ (client s))] ++
                      match p_socket_ (client s) with
                      | Some _ => [EvSocketShutdown; EvSocketClose]
                      | None => []
                      end ++ [EvEngineStop]) = []).
      { rewrite !pending_after_app. reflexivity. }
      rewrite Hp. repeat split; auto. intros Hin. inversion Hin.
    + repeat split; auto.
  - (* connect completed *)
    destruct (decide (PendingConnect ∈ pending s)) as [Hin |];
      [| discriminate Hstep].
    injection Hstep as <-.
    rewrite (awaited_alone _ _ Hlen Hin) in *. unfold session_ok.
    cbn [client pending handle remove_first]. rewrite NetworkToTransport_eq.
    destruct (decide (PendingConnect = PendingConnect)); [| congruence].
    assert (Hs : Engine.IsStarted (async_engine_ (client s)) = true).
    { destruct (Engine.IsStarted (async_engine_ (client s))); [reflexivity |].
      discriminate (Hidle eq_refl). }
    destruct (is_error ec); cbn [state_of trace_of fst snd];
      rewrite ?pending_after_app, ?pending_after_notified; cbn.
    + repeat split; auto. intros Hin'. inversion Hin'.
    + repeat split; auto; try congruence.
      intros Hin'. apply list_elem_of_singleton in Hin'. discriminate Hin'.
  - (* handshake completed *)
    destruct (decide (PendingHandshake ∈ pending s)) as [Hin |];
      [| discriminate Hstep].
    injection Hstep as <-.
    rewrite (awaited_alone _ _ Hlen Hin) in *. unfold session_ok.
    cbn [client pending handle remove_first]. rewrite DoSSFStart_eq.
    destruct (decide (PendingHandshake = PendingHandshake)); [| congruence].
    assert (Hs : Engine.IsStarted (async_engine_ (client s)) = true).
    { destruct (Engine.IsStarted (async_engine_ (client s))); [reflexivity |].
      discriminate (Hidle eq_refl). }
    destruct (is_error ec); cbn [state_of trace_of fst snd].
    + rewrite ?pending_after_app, ?pending_after_notified. cbn.
      repeat split; auto. intros Hin'. inversion Hin'.
    + rewrite DoFiberize_eq. cbn [trace_of snd].
      rewrite ?pending_after_app, ?pending_after_notified,
        ?pending_after_registrations.
      cbn [pending_after fold_left pending_after_event app length].
      split; [intros Hs'; exfalso; revert Hs'; change
                (Engine.IsStarted
                   (async_engine_ (fiberized admin_start (client s))))
                with (Engine.IsStarted (async_engine_ (client s)));
              congruence |].
      split; [lia |]. intros _. unfold fiberized.
      cbn [service_factories set_service_factories fiber_demux_].
      rewrite lookup_alter_eq, lookup_insert_eq. cbn. eauto.
  - (* the multiplexer closed *)
    destruct (decide (PendingDemuxClose ∈ pending s)) as [Hin |];
      [| discriminate Hstep].
    injection Hstep as <-.
    rewrite (awaited_alone _ _ Hlen Hin) in *. unfold session_ok.
    cbn [client pending handle remove_first]. rewrite OnDemuxClose_eq.
    destruct (decide (PendingDemuxClose = PendingDemuxClose)); [| congruence].
    destruct (service_factories (client s) !! fiber_demux_ (client s));
      cbn [state_of trace_of fst snd];
      rewrite ?pending_after_app, ?pending_after_notified,
        ?pending_after_stop_events; cbn;
      (repeat split; auto; intros Hin'; inversion Hin').
Qed.

Lemma session_run_ok inputs : forall s s',
  session_ok s -> session_run s inputs = Some s' -> session_ok s'.
Proof.
  induction inputs as [| i rest IH]; intros s s' Hok Hrun; cbn in Hrun.
  - now injection Hrun as <-.
  - destruct (session_step s i) as [s1|] eqn:Hstep; [| discriminate Hrun].
    eapply IH; [| exact Hrun]. eapply session_step_ok; eassumption.
Qed.

(** In a session, whenever the multiplexer can signal its close, a factory
    is associated with it: the test in [OnDemuxClose] then succeeds. *)
Lemma factory_when_close_awaited c inputs s :
  session_run (Session_new c) inputs = Some s ->
  PendingDemuxClose ∈ pending s ->
  is_Some (service_factories (client s) !! fiber_demux_ (client s)).
Proof.
  intros Hrun. apply (session_run_ok inputs (Session_new c) s); [| exact Hrun].
  unfold session_ok, Session_new. cbn [pending client].
  repeat split; auto. intros Hin. inversion Hin.
Qed.

(** ** C6: the multiplexer's close handler *)

(** C6, as stated, fails on a client built with an empty callback: its
    multiplexer has a factory, the handler destroys it and stops the Admin
    service, and no Close notification follows. *)
Lemma OnDemuxClose_silent :
  is_Some (service_factories silent_running_client
             !! fiber_demux_ silent_running_client) /\
  trace_of (OnDemuxClose silent_running_client) =
    [EvFactoryDestroy 7%nat; EvServiceStop 0%nat Admin] /\
  ~ close_destroys_then_notifies silent_running_client.
Proof.
  assert (Ht : trace_of (OnDemuxClose silent_running_client) =
                 [EvFactoryDestroy 7%nat; EvServiceStop 0%nat Admin])
    by (vm_compute; reflexivity).
  split; [vm_compute; eauto |]. split; [exact Ht |].
  intros (before & cb & ec & Heq & _). rewrite Ht in Heq.
  destruct before as [| e1 [| e2 [| e3 before]]]; discriminate Heq.
Qed.

(** C6, amended. When the multiplexer signals its close and a factory is
    associated with it, the handler destroys that factory, which stops
    every service instance its manager runs and removes the association,
    and only then notifies: with a callback one Close notification is
    posted, after the destruction and after every stop, carrying the empty
    error code; with an empty callback none is posted. *)
Theorem OnDemuxClose_destroys_then_notifies (c : SSFClient)
    (f : ServiceFactory) :
  service_factories c !! fiber_demux_ c = Some f ->
  let r := OnDemuxClose c in
  trace_of r =
    [EvFactoryDestroy (fiber_demux_ c)] ++ stop_events f ++
    notified c CLOSE no_error /\
  posts CLOSE ([EvFactoryDestroy (fiber_demux_ c)] ++ stop_events f) = [] /\
  service_factories (state_of r) !! fiber_demux_ c = None /\
  (forall cb, callback_ c = Some cb ->
     trace_of r =
       ([EvFactoryDestroy (fiber_demux_ c)] ++ stop_events f) ++
       [EvPost cb CLOSE None no_error]) /\
  (callback_ c = None -> posts CLOSE (trace_of r) = []).
Proof.
  intros Hf. cbv zeta. rewrite OnDemuxClose_eq, Hf.
  unfold state_of, trace_of. cbn [fst snd].
  split; [reflexivity |].
  split; [apply (posts_stop_events CLOSE f) |].
  split; [apply lookup_delete_eq |].
  split.
  - intros cb Hcb. unfold notified. rewrite Hcb. reflexivity.
  - intros Hcb. unfold notified. rewrite Hcb, app_nil_r.
    apply (posts_stop_events CLOSE f).
Qed.

Lemma OnDemuxClose_destroys_then_notifies_witness :
  service_factories running_client !! fiber_demux_ running_client =
    Some (mk_ServiceFactory (mk_ServiceManager 1 [(0%nat, Admin)])) /\
  trace_of (OnDemuxClose running_client) =
    [EvFactoryDestroy 7%nat; EvServiceStop 0%nat Admin;
     EvPost (Callback 1) CLOSE None no_error].
Proof.
  assert (Hf : service_factories running_client
                 !! fiber_demux_ running_client =
               Some (mk_ServiceFactory (mk_ServiceManager 1 [(0%nat, Admin)])))
    by (vm_compute; reflexivity).
  split; [exact Hf |].
  destruct (OnDemuxClose_destroys_then_notifies running_client _ Hf)
    as (_ & _ & _ & Hcb & _).
  exact (Hcb (Callback 1) eq_refl).
Defined.

(** ** C4: Close notifications *)

(** Only the multiplexer's close handler posts Close notifications. *)
Lemma handle_posts_close i c :
  posts CLOSE (trace_of (handle i c)) =
    match i with
    | DemuxClosed => notified c CLOSE no_error
    | _ => []
    end.
Proof.
  destruct i; by_equations;
    rewrite ?DoFiberize_eq; cbn [trace_of snd];
    rewrite ?posts_app, ?posts_stop_events, ?posts_registrations,
      ?posts_notified_same, ?posts_notified;
    reflexivity.
Qed.

Lemma session_step_history s i s' :
  session_step s i = Some s' ->
  client s' = state_of (handle i (client s)) /\
  history s' = history s ++ trace_of (handle i (client s)).
Proof.
  unfold session_step. intros H.
  destruct (awaited i) as [w|]; [destruct (decide (w ∈ pending s)) |];
    try discriminate H; injection H as <-; split; reflexivity.
Qed.

Lemma session_run_posts_close inputs : forall s s',
  session_run s inputs = Some s' ->
  callback_ (client s') = callback_ (client s) /\
  posts CLOSE (history s') =
    posts CLOSE (history s) ++ close_posts (client s) inputs.
Proof.
  induction inputs as [| i rest IH]; intros s s' Hrun; cbn in Hrun.
  - injection Hrun as <-. split; [reflexivity |].
    cbn. now rewrite app_nil_r.
  - destruct (session_step s i) as [s1|] eqn:Hstep; [| discriminate Hrun].
    destruct (session_step_history _ _ _ Hstep) as [Hc Hh].
    destruct (IH _ _ Hrun) as [Hcb Hposts].
    assert (Hcb1 : callback_ (client s1) = callback_ (client s))
      by (rewrite Hc; apply handle_callback).
    split; [congruence |].
    rewrite Hposts, Hh, posts_app, handle_posts_close, <- app_assoc.
    f_equal. cbn [close_posts flat_map]. f_equal.
    unfold close_posts. apply flat_map_ext. intros []; try reflexivity.
    now apply notified_callback.
Qed.

(** C4, as stated, fails on a client that has a callback: when the
    handshake fails the session is over, the failure was notified, and no
    Close notification was posted. *)
Lemma no_close_after_handshake_failure :
  ~ one_close_when_over sample_client
      (handshake_run sample_query (no_error, sample_endpoint) no_error
         Socket refused no_error).
Proof.
  intros Hclaim.
  assert (Hover : exists s,
            session_run (Session_new sample_client)
              (handshake_run sample_query (no_error, sample_endpoint)
                 no_error Socket refused no_error) = Some s /\
            connection_state s = Closed /\
            posts CLOSE (history s) = []).
  { eexists. split; [vm_compute; reflexivity |].
    split; vm_compute; reflexivity. }
  destruct Hover as (s & Hrun & Hstate & Hnone).
  destruct (Hclaim s Hrun Hstate) as (cb & ec & Hposts).
  rewrite Hnone in Hposts. discriminate Hposts.
Qed.

(** C4, amended. Over any run of a session, the Close notifications posted
    are exactly those of the multiplexer's close handler: one for each
    close signal when the client has a callback, none otherwise, and each
    carries the empty error code whatever made the multiplexer close. [Run],
    [Stop], and the completions of connect and handshake post none, so a
    session that ends before the multiplexer runs gets no Close
    notification. *)
Theorem close_notifications_of_run (c : SSFClient) (inputs : list Input)
    (s : Session) :
  session_run (Session_new c) inputs = Some s ->
  posts CLOSE (history s) = close_posts c inputs /\
  Forall (fun e => exists cb, e = EvPost cb CLOSE None no_error)
    (posts CLOSE (history s)) /\
  (DemuxClosed ∉ inputs -> posts CLOSE (history s) = []).
Proof.
  intros Hrun.
  destruct (session_run_posts_close inputs _ _ Hrun) as [_ Hposts].
  cbn [Session_new history client posts List.filter app] in Hposts.
  rewrite Hposts. clear Hrun Hposts s.
  split; [reflexivity |]. split.
  - induction inputs as [| i rest IH]; [constructor |].
    cbn [close_posts flat_map]. apply Forall_app. split; [| exact IH].
    destruct i; try constructor.
    unfold notified. destruct (callback_ c) as [cb|]; repeat constructor.
    exists cb. reflexivity.
  - induction inputs as [| i rest IH]; intros Hnot; [reflexivity |].
    cbn [close_posts flat_map]. fold (close_posts c rest). rewrite IH.
    + destruct i; try reflexivity. exfalso. apply Hnot. left.
    + intros Hin. apply Hnot. now right.
Qed.

Lemma close_notifications_of_run_witness :
  exists s,
    session_run (Session_new sample_client) closed_run = Some s /\
    posts CLOSE (history s) = [EvPost (Callback 1) CLOSE None no_error].
Proof.
  assert (Hrun : exists s,
            session_run (Session_new sample_client) closed_run = Some s)
    by (vm_compute; eexists; reflexivity).
  destruct Hrun as [s Hrun]. exists s. split; [exact Hrun |].
  destruct (close_notifications_of_run sample_client closed_run s Hrun)
    as [Hposts _].
  rewrite Hposts. reflexivity.
Defined.

(** ** C1: a run whose handshake succeeds *)

(** C1. What the code does where the claim expects the Admin startup error:
    for a client with a callback and a handshake that succeeded, the
    Network notification with the handshake's code is posted first, the
    transport is fiberized next, [DoFiberize] hands back the outcome of
    starting the Admin service, and the Transport notification posted last
    carries the handshake's code again, not that outcome. *)
Theorem DoSSFStart_transport_carries_handshake_code (c : SSFClient)
    (cb : ClientCallback) (p_socket : NetworkSocket)
    (ec admin_start : error_code) :
  callback_ c = Some cb ->
  is_error ec = false ->
  let t := trace_of (DoSSFStart p_socket ec admin_start c) in
  (exists before after,
     t = [EvPost cb NETWORK None ec] ++ before ++
         [EvFiberize (fiber_demux_ c) p_socket] ++ after ++
         [EvPost cb TRANSPORT None ec]) /\
  posts NETWORK t = [EvPost cb NETWORK None ec] /\
  posts TRANSPORT t = [EvPost cb TRANSPORT None ec] /\
  result_of (DoFiberize p_socket admin_start c) = admin_start.
Proof.
  intros Hcb Hok. cbv zeta.
  rewrite DoSSFStart_eq, Hok, DoFiberize_eq.
  unfold notified, trace_of, state_of, result_of. rewrite Hcb.
  cbn [fst snd].
  split; [| repeat split].
  eexists [_; _; _; _], _. reflexivity.
Qed.

(** The failing run: the handshake succeeds, the Admin service fails to
    start with [admin_failed], and the Transport notification reports
    success. *)
Lemma DoSSFStart_transport_carries_handshake_code_witness :
  callback_ started_client = Some (Callback 1) /\
  is_error no_error = false /\
  is_error admin_failed = true /\
  result_of (DoFiberize Socket admin_failed started_client) = admin_failed /\
  posts TRANSPORT
    (trace_of (DoSSFStart Socket no_error admin_failed started_client)) =
    [EvPost (Callback 1) TRANSPORT None no_error] /\
  no_error <> admin_failed.
Proof.
  split; [reflexivity |]. split; [reflexivity |]. split; [reflexivity |].
  destruct (DoSSFStart_transport_carries_handshake_code started_client
              (Callback 1) Socket no_error admin_failed eq_refl eq_refl)
    as (_ & _ & Htransport & Hres).
  split; [exact Hres |]. split; [exact Htransport |]. discriminate.
Defined.

(** ** C8: registrations during fiberization *)

Lemma all_services_complete k : all_services !! registration_rank k = Some k.
Proof. destruct k; reflexivity. Qed.

(** C8. In [DoFiberize], for every service type, the service is registered
    exactly once, with its own configuration; the registration comes after
    the one creation of the service factory and before the one start of
    the Admin service, which comes after all of them; and the factory then
    associated with the multiplexer is the fresh one, holding at most the
    Admin service. *)
Theorem DoFiberize_registers_each_service_once (c : SSFClient)
    (p_socket : NetworkSocket) (admin_start : error_code) (k : ServiceKind) :
  let r := DoFiberize p_socket admin_start c in
  length (List.filter (registers k) (trace_of r)) = 1%nat /\
  (exists before after,
     trace_of r =
       before ++
       [EvRegisterToServiceFactory k (config_of (services_config_ c) k)] ++
       after /\
     List.filter is_create_factory before =
       [EvCreateServiceFactory (fiber_demux_ c)] /\
     List.filter is_create_factory after = [] /\
     List.filter is_manager_start before = [] /\
     List.filter is_manager_start after = [EvManagerStart Admin]) /\
  service_factories (state_of r) !! fiber_demux_ c =
    Some (mk_ServiceFactory (manager_start new_manager Admin admin_start)).
Proof.
  cbv zeta. rewrite DoFiberize_eq. unfold trace_of, state_of. cbn [fst snd].
  split; [destruct k; reflexivity |]. split.
  - match goal with
    | |- exists before after, ?t = _ /\ _ =>
        exists (take (6 + registration_rank k) t),
               (drop (7 + registration_rank k) t)
    end.
    destruct k; repeat split.
  - unfold fiberized. cbn [service_factories set_service_factories].
    rewrite lookup_alter_eq, lookup_insert_eq. reflexivity.
Qed.

(** ** C7: notifications go through the scheduler *)

(** C7. Whatever call a client receives, in whatever state, its effects
    contain no direct call of the application callback: every notification
    it sends, of kind Network, Transport or Close, is a call of the client's
    own callback posted to the scheduler of its engine. *)
Theorem notifications_are_posted (c : SSFClient) (i : Input) :
  Forall (posted_not_invoked c) (trace_of (handle i c)) /\
  List.filter is_invoke (trace_of (handle i c)) = [] /\
  forall type,
    Forall (fun e => exists ec, [e] = notified c type ec)
      (posts type (trace_of (handle i c))).
Proof.
  assert (Hall : Forall (posted_not_invoked c) (trace_of (handle i c))).
  { destruct i; by_equations; rewrite ?DoFiberize_eq; cbn [trace_of snd];
      repeat (apply Forall_app; split);
      auto using notified_posted, stop_events_posted, registrations_posted;
      repeat constructor. }
  split; [exact Hall |]. split.
  - induction Hall as [| e t He _ IH]; [reflexivity |].
    cbn [List.filter]. rewrite IH. destruct e; try reflexivity. destruct He.
  - intros type. induction Hall as [| e t He _ IH]; [constructor |].
    unfold posts in *. cbn [List.filter].
    destruct (is_post type e) eqn:Hpost; [| exact IH].
    constructor; [| exact IH].
    destruct e; try discriminate Hpost. cbn in Hpost, He.
    destruct He as [Hcb ->]. apply bool_decide_eq_true in Hpost. subst type0.
    exists ec. unfold notified. rewrite Hcb. reflexivity.
Qed.

(** * Further properties of the client *)

(** ** Sequences of calls *)

Lemma run_calls_cons i rest c :
  run_calls (i :: rest) c =
    (tt, state_of (run_calls rest (state_of (handle i c))),
     trace_of (handle i c) ++
     trace_of (run_calls rest (state_of (handle i c)))).
Proof.
  cbn [run_calls]. unfold bind at 1, state_of, trace_of.
  destruct (handle i c) as [[u c1] t1]. cbn [fst snd].
  destruct (run_calls rest c1) as [[[] c2] t2]. reflexivity.
Qed.

Lemma count_app p t1 t2 : count p (t1 ++ t2) = (count p t1 + count p t2)%nat.
Proof. unfold count. now rewrite List.filter_app, length_app. Qed.

Lemma count_notified p c type ec :
  ignores_posts p -> count p (notified c type ec) = 0%nat.
Proof.
  intros Hp. unfold count, notified. destruct (callback_ c); [| reflexivity].
  cbn [List.filter]. now rewrite Hp.
Qed.

Lemma count_stop_events p f :
  ignores_stops p -> count p (stop_events f) = 0%nat.
Proof.
  intros Hp. unfold count, stop_events.
  induction (running (manager f)) as [| i l IH]; [reflexivity |].
  cbn [map List.filter]. now rewrite Hp.
Qed.

(** Normalises the count of a test over the trace of one call. *)
Ltac count_trace :=
  rewrite ?DoFiberize_eq; cbn [trace_of state_of fst snd];
  rewrite ?count_app, ?count_notified, ?count_stop_events
    by (unfold ignores_posts, ignores_stops; intros; reflexivity);
  cbn [count List.filter length registrations all_services map app
       is_engine_start is_engine_stop is_async_connect is_initiate
       is_create_admin is_fiberize is_create_factory is_manager_start
       Nat.add].

(** Rewrites one call into its equation, splits on the tests it makes on
    the client it was given, and computes the client it leaves. *)
Ltac call_cases :=
  rewrite ?handle_CallRun;
  cbn [handle result_of state_of trace_of fst snd];
  rewrite ?Run_eq, ?Stop_eq, ?NetworkToTransport_eq, ?DoSSFStart_eq,
    ?OnDemuxClose_eq;
  repeat match goal with
  | |- context [Engine.IsStarted (async_engine_ ?c)] =>
      is_var c; destruct (Engine.IsStarted (async_engine_ c)) eqn:?
  | |- context [is_error ?e] => destruct (is_error e) eqn:?
  | |- context [p_socket_ ?c] => is_var c; destruct (p_socket_ c) eqn:?
  | |- context [service_factories ?c !! fiber_demux_ ?c] =>
      is_var c; destruct (service_factories c !! fiber_demux_ c) eqn:?
  end;
  cbn [result_of state_of trace_of fst snd async_engine_ p_socket_
       fiber_demux_ user_services_ services_config_ callback_
       service_factories set_async_engine set_p_socket set_service_factories fiberized stopped
       Engine.IsStarted Engine.Start Engine.Stop started];
  repeat match goal with
  | H : ?x = _ |- context [?x] => rewrite H
  end.

(** ** The engine and the connects *)

Lemma handle_engine_balance i c :
  (count is_engine_start (trace_of (handle i c)) + engine_runs c =
   count is_engine_stop (trace_of (handle i c)) +
   engine_runs (state_of (handle i c)))%nat /\
  count is_async_connect (trace_of (handle i c)) =
    count is_engine_start (trace_of (handle i c)).
Proof.
  unfold engine_runs. destruct i; call_cases; count_trace; split; reflexivity.
Qed.

(** X1. Over any calls made to a client, in any order and whatever the
    surroundings answer, starts and halts of the engine alternate: the
    number of starts, plus one if the engine ran at the beginning, is the
    number of halts, plus one if it runs at the end. And a connect is
    issued exactly once for each start of the engine, so between two halts
    there is never more than one connect. *)
Theorem engine_starts_and_stops_alternate (inputs : list Input)
    (c : SSFClient) :
  let r := run_calls inputs c in
  (count is_engine_start (trace_of r) + engine_runs c =
   count is_engine_stop (trace_of r) + engine_runs (state_of r))%nat /\
  count is_async_connect (trace_of r) = count is_engine_start (trace_of r).
Proof.
  cbv zeta. revert c. induction inputs as [| i rest IH]; intros c.
  - split; reflexivity.
  - rewrite run_calls_cons. cbn [state_of trace_of fst snd].
    rewrite !count_app.
    destruct (handle_engine_balance i c) as [Hb Hc].
    destruct (IH (state_of (handle i c))) as [IHb IHc].
    split; lia.
Qed.

(** ** What no call ever changes *)

Lemma handle_frame i c :
  callback_ (state_of (handle i c)) = callback_ c /\
  user_services_ (state_of (handle i c)) = user_services_ c /\
  services_config_ (state_of (handle i c)) = services_config_ c /\
  fiber_demux_ (state_of (handle i c)) = fiber_demux_ c.
Proof. destruct i; call_cases; repeat split. Qed.


(** X2. Over any calls made to a client, the callback, the user services,
    the services configuration and the multiplexer it was built with stay
    the same: the callback given to the constructor is the one every later
    notification goes to. *)
Theorem calls_keep_construction_arguments (inputs : list Input)
    (c : SSFClient) :
  let c' := state_of (run_calls inputs c) in
  callback_ c' = callback_ c /\
  user_services_ c' = user_services_ c /\
  services_config_ c' = services_config_ c /\
  fiber_demux_ c' = fiber_demux_ c.
Proof.
  cbv zeta. revert c. induction inputs as [| i rest IH]; intros c.
  - repeat split.
  - rewrite run_calls_cons. cbn [state_of fst snd].
    destruct (handle_frame i c) as (H1 & H2 & H3 & H4).
    destruct (IH (state_of (handle i c))) as (I1 & I2 & I3 & I4).
    repeat split; congruence.
Qed.



(** ** Fiberization, seen over a whole life *)

Lemma count_post_notified type type' c ec :
  count (is_post type) (notified c type' ec) =
    if decide (type' = type)
    then match callback_ c with Some _ => 1%nat | None => 0%nat end
    else 0%nat.
Proof.
  unfold count. fold (posts type (notified c type' ec)).
  rewrite posts_notified. unfold notified.
  destruct (decide (type' = type)), (callback_ c); reflexivity.
Qed.

Lemma handle_fiberize_counts i c (k : ServiceKind) :
  let t := trace_of (handle i c) in
  count is_create_factory t = count is_fiberize t /\
  count is_create_admin t = count is_fiberize t /\
  count is_manager_start t = count is_fiberize t /\
  count (registers k) t = count is_fiberize t /\
  count (is_post TRANSPORT) t =
    match callback_ c with
    | Some _ => count is_fiberize t
    | None => 0%nat
    end.
Proof.
  cbv zeta. destruct i; call_cases; count_trace;
    rewrite ?count_app, ?count_post_notified, ?count_stop_events
      by (unfold ignores_stops; intros; reflexivity);
    cbn [count List.filter length is_post registers decide Nat.add];
    destruct (callback_ c); repeat split; destruct k; reflexivity.
Qed.

(** X4. Over any calls made to a client, every fiberization of the
    transport comes with exactly one creation of a service factory, one
    registration of each service type, one creation and one start of the
    Admin service; and Transport notifications are posted only then: with a
    callback there are as many as fiberizations, without one there is
    none. *)
Theorem fiberizations_are_complete (inputs : list Input) (c : SSFClient)
    (k : ServiceKind) :
  let t := trace_of (run_calls inputs c) in
  count is_create_factory t = count is_fiberize t /\
  count is_create_admin t = count is_fiberize t /\
  count is_manager_start t = count is_fiberize t /\
  count (registers k) t = count is_fiberize t /\
  count (is_post TRANSPORT) t =
    match callback_ c with
    | Some _ => count is_fiberize t
    | None => 0%nat
    end.
Proof.
  cbv zeta. revert c. induction inputs as [| i rest IH]; intros c.
  - destruct (callback_ c); repeat split.
  - rewrite run_calls_cons. cbn [trace_of snd]. rewrite !count_app.
    destruct (handle_fiberize_counts i c k) as (H1 & H2 & H3 & H4 & H5).
    destruct (IH (state_of (handle i c))) as (I1 & I2 & I3 & I4 & I5).
    destruct (handle_frame i c) as (Hcb & _). rewrite Hcb in I5.
    destruct (callback_ c); repeat split; lia.
Qed.

(** ** Whole runs *)

Lemma filter_post_notified c type ec :
  List.filter is_any_post (notified c type ec) = notified c type ec.
Proof. unfold notified. destruct (callback_ c); reflexivity. Qed.



(** The session once [Run] has resolved and issued its connect. *)
Lemma session_after_run c query resolved :
  Engine.IsStarted (async_engine_ c) = false ->
  is_error resolved.1 = false ->
  session_step (Session_new c) (CallRun query resolved) =
    Some (mk_Session
            (set_async_engine Engine.Start (set_p_socket (Some Socket) c))
            [PendingConnect] true
            [EvMakeSocket; EvResolve query; EvEngineStart;
             EvAsyncConnect resolved.2]).
Proof.
  intros Hs Hres. unfold session_step, Session_new.
  cbn [awaited client pending launched history].
  rewrite handle_CallRun, Run_eq, Hs, Hres. reflexivity.
Qed.

(** X5. Take a client whose engine is not started; [Run] resolves its
    endpoint and the connect completes with a failure. Then over the whole
    run the only notification posted is the Network one with that failure
    (none without a callback); no handshake is initiated and nothing is
    fiberized; the session is over, yet the engine is still started and the
    socket still held, so a new [Run] is turned away as already running
    until [Stop] has been called, after which [Run] resolves again. *)
Theorem connect_failure_run (c : SSFClient) (query : NetworkQuery)
    (resolved : error_code * Endpoint) (connected : error_code) :
  Engine.IsStarted (async_engine_ c) = false ->
  is_error resolved.1 = false ->
  is_error connected = true ->
  exists s,
    session_run (Session_new c) (connect_run query resolved connected)
      = Some s /\
    List.filter is_any_post (history s) = notified c NETWORK connected /\
    count is_initiate (history s) = 0%nat /\
    count is_fiberize (history s) = 0%nat /\
    connection_state s = Closed /\
    Engine.IsStarted (async_engine_ (client s)) = true /\
    p_socket_ (client s) = Some Socket /\
    (forall query' resolved',
       Run query' resolved' (client s) =
         (already_running, client s,
          [EvLog kLogError "client: already running" None])) /\
    (forall e1 e2 query' resolved',
       result_of (Run query' resolved' (state_of (Stop e1 e2 (client s))))
         = resolved'.1).
Proof.
  intros Hs Hres Hconn.
  set (c1 := set_async_engine Engine.Start (set_p_socket (Some Socket) c)).
  set (t1 := [EvMakeSocket; EvResolve query; EvEngineStart;
              EvAsyncConnect resolved.2]).
  assert (H2 : session_step (mk_Session c1 [PendingConnect] true t1)
                 (ConnectDone connected) =
                 Some (mk_Session c1 [] true
                         (t1 ++
                          [EvLog kLogError
                             "client: error when connecting to server: "
                             (Some connected)] ++
                          notified c NETWORK connected))).
  { unfold session_step.
    cbn [awaited client pending launched history handle].
    rewrite NetworkToTransport_eq, Hconn.
    change (notified c1 NETWORK connected)
      with (notified c NETWORK connected).
    unfold notified. destruct (callback_ c); reflexivity. }
  eexists. split.
  { unfold connect_run. cbn [session_run].
    rewrite (session_after_run c query resolved Hs Hres).
    fold c1 t1. rewrite H2. reflexivity. }
  cbn [history client].
  split. { rewrite !List.filter_app, filter_post_notified. reflexivity. }
  split. { rewrite !count_app, count_notified by (intros ? ? ? ?; reflexivity).
           reflexivity. }
  split. { rewrite !count_app, count_notified by (intros ? ? ? ?; reflexivity).
           reflexivity. }
  split; [reflexivity |]. split; [reflexivity |]. split; [reflexivity |].
  split.
  - intros query' resolved'. rewrite Run_eq. reflexivity.
  - intros e1 e2 query' resolved'. rewrite Stop_eq.
    change (Engine.IsStarted (async_engine_ c1)) with true. cbv iota.
    cbn [state_of fst snd]. rewrite Run_eq.
    change (Engine.IsStarted (async_engine_ (stopped c1))) with false.
    cbv iota. destruct (is_error resolved'.1); reflexivity.
Qed.

Lemma connect_failure_run_witness :
  Engine.IsStarted (async_engine_ sample_client) = false /\
  is_error no_error = false /\
  is_error refused = true /\
  exists s,
    session_run (Session_new sample_client)
      (connect_run sample_query (no_error, sample_endpoint) refused)
      = Some s /\
    List.filter is_any_post (history s) =
      [EvPost (Callback 1) NETWORK None refused] /\
    connection_state s = Closed.
Proof.
  split; [reflexivity |]. split; [reflexivity |]. split; [reflexivity |].
  destruct (connect_failure_run sample_client sample_query
              (no_error, sample_endpoint) refused eq_refl eq_refl eq_refl)
    as (s & Hrun & Hposts & _ & _ & Hstate & _).
  exists s. repeat split; assumption.
Defined.



(** X7. In a session, as long as the client awaits something (the connect,
    the handshake, or the close of a running multiplexer), [Run] is turned
    away: it answers already-running, logs, and changes nothing. *)
Theorem Run_refused_while_awaiting (c : SSFClient) (inputs : list Input)
    (s : Session) (query : NetworkQuery) (resolved : error_code * Endpoint) :
  session_run (Session_new c) inputs = Some s ->
  pending s <> [] ->
  Run query resolved (client s) =
    (already_running, client s,
     [EvLog kLogError "client: already running" None]).
Proof.
  intros Hrun Hp.
  assert (Hok : session_ok s).
  { apply (session_run_ok inputs (Session_new c) s); [| exact Hrun].
    unfold session_ok, Session_new. cbn [pending client].
    repeat split; auto. intros Hin. inversion Hin. }
  destruct Hok as (Hidle & _ & _). rewrite Run_eq.
  destruct (Engine.IsStarted (async_engine_ (client s)));
    [reflexivity | now destruct Hp; apply Hidle].
Qed.

Lemma Run_refused_while_awaiting_witness :
  exists s,
    session_run (Session_new sample_client)
      (handshake_run sample_query (no_error, sample_endpoint) no_error
         Socket no_error no_error) = Some s /\
    pending s = [PendingDemuxClose] /\
    result_of (Run sample_query (no_error, sample_endpoint) (client s)) =
      already_running.
Proof.
  assert (Hrun : exists s,
            session_run (Session_new sample_client)
              (handshake_run sample_query (no_error, sample_endpoint)
                 no_error Socket no_error no_error) = Some s /\
            pending s = [PendingDemuxClose])
    by (eexists; split; vm_compute; reflexivity).
  destruct Hrun as (s & Hrun & Hp). exists s.
  split; [exact Hrun |]. split; [exact Hp |].
  rewrite (Run_refused_while_awaiting sample_client _ s sample_query
             (no_error, sample_endpoint) Hrun); [reflexivity |].
  rewrite Hp. discriminate.
Defined.

(** X8. In every state a client can be in with its engine started, a
    connect that completes without error hands a socket that exists to the
    handshake: [DoSSFInitiate] is never called on a null pointer, it posts
    nothing and the client is unchanged. *)
Theorem handshake_gets_a_socket (c : SSFClient) (ec : error_code) :
  reachable c ->
  Engine.IsStarted (async_engine_ c) = true ->
  is_error ec = false ->
  exists sock,
    p_socket_ c = Some sock /\
    NetworkToTransport ec c = (tt, c, [EvDoSSFInitiate (Some sock)]).
Proof.
  intros Hreach Hs Hok.
  destruct (reachable_socket_while_started c Hreach Hs) as [sock Hp].
  exists sock. split; [exact Hp |].
  rewrite NetworkToTransport_eq, Hok, Hp. reflexivity.
Qed.

Lemma handshake_gets_a_socket_witness :
  reachable started_client /\
  Engine.IsStarted (async_engine_ started_client) = true /\
  is_error no_error = false /\
  NetworkToTransport no_error started_client =
    (tt, started_client, [EvDoSSFInitiate (Some Socket)]).
Proof.
  split; [exact started_client_reachable |].
  split; [reflexivity |]. split; [reflexivity |].
  destruct (handshake_gets_a_socket started_client no_error
              started_client_reachable eq_refl eq_refl)
    as (sock & _ & Heq).
  destruct sock. exact Heq.
Defined.

(** ** [Stop] and the destructor *)


(** X10. When [Run] fails to resolve its endpoint, the socket it made stays
    with the client while the engine stays halted; a [Stop] or a
    destruction that follows returns at once and neither shuts down nor
    closes nor releases that socket. Only the next [Run] replaces it. *)
Theorem failed_resolution_keeps_socket (c : SSFClient) (query : NetworkQuery)
    (resolved : error_code * Endpoint) (shutdown_ec close_ec : error_code) :
  Engine.IsStarted (async_engine_ c) = false ->
  is_error resolved.1 = true ->
  let c1 := state_of (Run query resolved c) in
  p_socket_ c1 = Some Socket /\
  Engine.IsStarted (async_engine_ c1) = false /\
  Stop shutdown_ec close_ec c1 = (tt, c1, []) /\
  p_socket_ (state_of (Stop shutdown_ec close_ec c1)) = Some Socket /\
  forall query' resolved',
    count is_network_action (trace_of (Run query' resolved' c1)) =
      (if is_error resolved'.1 then 2%nat else 4%nat).
Proof.
  intros Hs Herr. cbv zeta. rewrite Run_eq, Hs, Herr.
  cbn [state_of fst snd].
  assert (Hs1 : Engine.IsStarted
                  (async_engine_ (set_p_socket (Some Socket) c)) = false)
    by exact Hs.
  assert (Hstop : Stop shutdown_ec close_ec (set_p_socket (Some Socket) c) =
                    (tt, set_p_socket (Some Socket) c, [])).
  { rewrite Stop_eq, Hs1. reflexivity. }
  split; [reflexivity |]. split; [exact Hs1 |]. split; [exact Hstop |].
  split; [rewrite Hstop; reflexivity |].
  intros query' resolved'. rewrite Run_eq, Hs1.
  destruct (is_error resolved'.1); cbn [trace_of snd].
  - rewrite !count_app, count_notified by (intros ? ? ? ?; reflexivity).
    reflexivity.
  - reflexivity.
Qed.

Lemma failed_resolution_keeps_socket_witness :
  Engine.IsStarted (async_engine_ sample_client) = false /\
  is_error refused = true /\
  p_socket_
    (state_of
       (Stop no_error no_error
          (state_of (Run sample_query (refused, sample_endpoint)
                       sample_client)))) = Some Socket.
Proof.
  split; [reflexivity |]. split; [reflexivity |].
  destruct (failed_resolution_keeps_socket sample_client sample_query
              (refused, sample_endpoint) no_error no_error eq_refl eq_refl)
    as (_ & _ & _ & Hp & _).
  exact Hp.
Defined.
